(** * remix-project: the [RemixAppProject] scaffolding constructor

    A shallow embedding of [src/index.ts].  The file defines one projen
    project type: its constructor resolves eight optional settings against
    their defaults, and then registers generated files, git-ignore patterns,
    dependencies and tasks with the host framework.

    What is embedded, and how:
    - optional option fields are JavaScript values that may be [undefined]
      or [null]; [??] is written out on them;
    - [process.env] is a finite map from names to strings and the file
      system is the finite set of paths that exist;
    - the constructor mutates [this] and may throw, so it is written in a
      small state-and-exception monad over the project object;
    - the host framework (projen) is not part of this repository: of each
      registration API the project object records the arguments that this
      constructor passes, in call order, starting from empty records. *)

From Stdlib Require Import ZArith Ascii String DecimalString.
From Stdlib Require DecimalPos DecimalZ.
From stdpp Require Import base gmap strings list.

Local Open Scope Z_scope.

(** ** JavaScript values *)

Module Js.

(** A value of an optional property: absent ([undefined]), [null], or a
    value of the declared type. *)
Inductive optional (A : Type) : Type :=
| undefined : optional A
| null : optional A
| value (a : A) : optional A.
Arguments undefined {A}.
Arguments null {A}.
Arguments value {A} a.

Definition is_nullish {A : Type} (x : optional A) : bool :=
  match x with
  | value _ => false
  | _ => true
  end.

(** [x ?? d]: the right operand only when the left one is [null] or
    [undefined].  No truthiness is involved. *)
Definition nullish_coalesce {A : Type} (x : optional A) (d : A) : A :=
  match x with
  | value a => a
  | _ => d
  end.

(** Truthiness of a [string | undefined], as tested by [if (e)]: the
    empty string and [undefined] are falsy. *)
Definition truthy (x : option string) : bool :=
  match x with
  | Some (String _ _) => true
  | Some EmptyString => false
  | None => false
  end.

(** [`${n}`] for an integral number [n]: the decimal digits, with a
    leading minus sign for a negative one.  Port numbers are integers;
    doubles that are not integers are outside this model. *)
Definition number_to_string (n : Z) : string :=
  NilZero.string_of_int (Z.to_int n).

(** [`${x}`] for a [string | undefined]. *)
Definition interpolate (x : option string) : string :=
  match x with
  | Some s => s
  | None => "undefined"
  end.

(** The character U+0022. *)
Definition dq : string := String (ascii_of_nat 34) EmptyString.

End Js.

Notation "x ?? d" := (Js.nullish_coalesce x d) (at level 45, left associativity).

(** ** Data model *)

(** [enum RemixDeploymentProvider]. *)
Inductive RemixDeploymentProvider : Type :=
| EXPRESS
| VERCEL.

Definition provider_string (p : RemixDeploymentProvider) : string :=
  match p with
  | EXPRESS => "express"
  | VERCEL => "vercel"
  end.

#[global] Instance RemixDeploymentProvider_eq_dec : EqDecision RemixDeploymentProvider.
Proof. solve_decision. Defined.

(** [interface RemixAppProjectOptions]; the option name [depolymentProvider]
    is spelled as in the source.  The properties carry the prefix [opt_]
    because the class has fields of the same names. *)
Record RemixAppProjectOptions : Type := {
  opt_remixVersion : Js.optional string;
  opt_depolymentProvider : Js.optional RemixDeploymentProvider;
  opt_appDirectory : Js.optional string;
  opt_browserBuildDirectory : Js.optional string;
  opt_publicPath : Js.optional string;
  opt_serverBuildDirectory : Js.optional string;
  opt_devServerPort : Js.optional Z;
  opt_tailwind : Js.optional bool
}.

(** The object literal [defaultRemixAppProjectOptions]. *)
Module defaultRemixAppProjectOptions.
Definition remixVersion : string := "0.13.1".
Definition depolymentProvider : RemixDeploymentProvider := EXPRESS.
Definition appDirectory : string := "app".
Definition browserBuildDirectory : string := "public/build".
Definition publicPath : string := "/build/".
Definition serverBuildDirectory : string := "build".
Definition devServerPort : Z := 8002.
Definition tailwind : bool := false.
End defaultRemixAppProjectOptions.

(** [interface RemixConfigFileOptions]. *)
Record RemixConfigFileOptions : Type := {
  cfg_appDirectory : string;
  cfg_browserBuildDirectory : string;
  cfg_publicPath : string;
  cfg_serverBuildDirectory : string;
  cfg_devServerPort : Z
}.

(** The task categories the source uses. *)
Inductive TaskCategory : Type :=
| BUILD
| RELEASE.

#[global] Instance TaskCategory_eq_dec : EqDecision TaskCategory.
Proof. solve_decision. Defined.

(** The second argument of [addTask]. *)
Record TaskOptions : Type := {
  description : string;
  category : TaskCategory;
  exec : string
}.

(** The components the constructor creates with [new]. *)
Inductive Component : Type :=
| RemixConfigFile (filePath : string) (options : RemixConfigFileOptions)
| TextFile (filePath : string) (committed readonly : bool) (lines : list string)
| Pm2ConfigFile (filePath : string)
| PostCss (tailwind : bool).

Definition component_path (c : Component) : option string :=
  match c with
  | RemixConfigFile p _ => Some p
  | TextFile p _ _ _ => Some p
  | Pm2ConfigFile p => Some p
  | PostCss _ => None
  end.

(** ** Config renderer *)

(** The constant stretches of the template literal of [createRemixConfig],
    cut at its five substitutions. *)
Module Template.
Import Js.

Definition seg0 : string :=
"
module.exports = {
  /**
   * The path to the " +:+ dq +:+ "app" +:+ dq +:+ " directory, relative to remix.config.js. Defaults to
   * " +:+ dq +:+ "app" +:+ dq +:+ ". All code in this directory is part of your app and will be compiled
   * by Remix.
   *
   */
  appDirectory: '".

Definition seg1 : string :=
"',

  /**
   * A hook for defining custom routes based on your own file conventions. This
   * is not required, but may be useful if you have custom/advanced routing
   * requirements.
   */
  // routes(defineRoutes) {
  //   return defineRoutes(route => {
  //     route(
  //       // The URL path for this route.
  //       " +:+ dq +:+ "/pages/one" +:+ dq +:+ ",
  //       // The path to this route's component file, relative to " +:+ dq +:+ "appDirectory" +:+ dq +:+ ".
  //       " +:+ dq +:+ "pages/one" +:+ dq +:+ ",
  //       // Options:
  //       {
  //         // The path to this route's data module, relative to " +:+ dq +:+ "dataDirectory" +:+ dq +:+ ".
  //         loader: " +:+ dq +:+ "..." +:+ dq +:+ ",
  //         // The path to this route's styles file, relative to " +:+ dq +:+ "appDirectory" +:+ dq +:+ ".
  //         styles: " +:+ dq +:+ "..." +:+ dq +:+ "
  //       }
  //     );
  //   });
  // },

  /**
   * The path to the browser build, relative to remix.config.js. Defaults to
   * " +:+ dq +:+ "public/build" +:+ dq +:+ ". The browser build contains all public JavaScript and CSS
   * files that are created when building your routes.
   */
  browserBuildDirectory: '".

Definition seg2 : string :=
"',

  /**
   * The URL prefix of the browser build with a trailing slash. Defaults to
   * " +:+ dq +:+ "/build/" +:+ dq +:+ ".
   */
  publicPath: '".

Definition seg3 : string :=
"',

  /**
   * The path to the server build directory, relative to remix.config.js.
   * Defaults to " +:+ dq +:+ "build" +:+ dq +:+ ". The server build is a collection of JavaScript modules
   * that are created from building your routes. They are used on the server to
   * generate HTML.
   */
  serverBuildDirectory: '".

Definition seg4 : string :=
"',

  /**
   * The port to use when running " +:+ dq +:+ "remix run" +:+ dq +:+ ". Defaults to 8002.
   */
  devServerPort: ".

(** The closing line is [};] followed by one space. *)
Definition seg5 : string :=
"
};" +:+ " " +:+ "
".

End Template.

(** [createRemixConfig]: the template literal, with [${options.x}] as
    string concatenation. *)
Definition createRemixConfig (options : RemixConfigFileOptions) : string :=
  Template.seg0 +:+ cfg_appDirectory options +:+
  Template.seg1 +:+ cfg_browserBuildDirectory options +:+
  Template.seg2 +:+ cfg_publicPath options +:+
  Template.seg3 +:+ cfg_serverBuildDirectory options +:+
  Template.seg4 +:+ Js.number_to_string (cfg_devServerPort options) +:+
  Template.seg5.

(** [Pm2ConfigFile.synthesizeContent]: a constant text. *)
Definition pm2Config : string :=
  let dq := Js.dq in
"
module.exports = {
  apps: [
    {
      name: " +:+ dq +:+ "Express" +:+ dq +:+ ",
      script: " +:+ dq +:+ "server.js" +:+ dq +:+ ",
      watch: [" +:+ dq +:+ "remix.config.js" +:+ dq +:+ ", " +:+ dq +:+ "app" +:+ dq +:+ "],
      watch_options: {
        followSymlinks: false,
      },
      env: {
        NODE_ENV: " +:+ dq +:+ "development" +:+ dq +:+ ",
      },
    },
    {
      name: " +:+ dq +:+ "Remix" +:+ dq +:+ ",
      script: " +:+ dq +:+ "remix run" +:+ dq +:+ ",
      ignore_watch: [" +:+ dq +:+ "." +:+ dq +:+ "],
      env: {
        NODE_ENV: " +:+ dq +:+ "development" +:+ dq +:+ ",
      },
    },
  ],
};
    ".

(** [synthesizeContent] of the two file classes this repository defines;
    the other components synthesize in the host framework. *)
Definition synthesizeContent (c : Component) : option string :=
  match c with
  | RemixConfigFile _ options => Some (createRemixConfig options)
  | Pm2ConfigFile _ => Some pm2Config
  | TextFile _ _ _ _ => None
  | PostCss _ => None
  end.

(** ** The environment the constructor reads *)

(** [process.env] and the paths that exist on disk. *)
Record World : Type := {
  process_env : gmap string string;
  disk : gset string
}.

Definition REMIX_RUN_LICENSE : string := "REMIX_RUN_LICENSE".

(** [path.join('.npmrc')]: one segment, already normal, so the path is
    looked up as it stands, relative to the working directory. *)
Definition npmrc : string := ".npmrc".

(** [process.env.REMIX_RUN_LICENSE]: [None] is [undefined]. *)
Definition license (w : World) : option string :=
  process_env w !! REMIX_RUN_LICENSE.

(** [fs.existsSync]. *)
Definition existsSync (w : World) (p : string) : bool :=
  bool_decide (p ∈ disk w).

(** ** The project object *)

(** What the constructor hands to the registration APIs it inherits, per
    API and in call order. *)
Record Registered : Type := {
  components : list Component;
  gitignore : list string;
  deps : list string;
  devDeps : list string;
  tasks : list (string * TaskOptions)
}.

Definition nothing_registered : Registered :=
  {| components := []; gitignore := []; deps := []; devDeps := []; tasks := [] |}.

(** [class RemixAppProject]: its own read-only fields, and the state it
    inherits from the host's project class. *)
Record RemixAppProject : Type := {
  deploymentProvider : RemixDeploymentProvider;
  appDirectory : string;
  browserBuildDirectory : string;
  publicPath : string;
  serverBuildDirectory : string;
  devServerPort : Z;
  tailwind : bool;
  remixVersion : string;
  remixConfigFile : Component;
  registered : Registered
}.

Definition with_registered (f : Registered → Registered)
    (this : RemixAppProject) : RemixAppProject :=
  {| deploymentProvider := deploymentProvider this;
     appDirectory := appDirectory this;
     browserBuildDirectory := browserBuildDirectory this;
     publicPath := publicPath this;
     serverBuildDirectory := serverBuildDirectory this;
     devServerPort := devServerPort this;
     tailwind := tailwind this;
     remixVersion := remixVersion this;
     remixConfigFile := remixConfigFile this;
     registered := f (registered this) |}.

(** ** Methods: state passing over [this], with exceptions *)

(** [new Error(message)]. *)
Record Error : Type := { message : string }.

Inductive completion (A : Type) : Type :=
| Normal (a : A)
| Throw (e : Error).
Arguments Normal {A} a.
Arguments Throw {A} e.

(** A method body: from [this] before to how it completes and [this]
    after.  The object is kept when an exception is thrown, so that what
    was registered before the throw can be read off. *)
Definition Method (A : Type) : Type :=
  RemixAppProject → completion A * RemixAppProject.

#[global] Instance Method_ret : MRet Method :=
  λ A a this, (Normal a, this).

#[global] Instance Method_bind : MBind Method :=
  λ A B k m this,
    match m this with
    | (Normal a, this') => k a this'
    | (Throw e, this') => (Throw e, this')
    end.

Definition getThis : Method RemixAppProject :=
  λ this, (Normal this, this).

Definition throw {A : Type} (e : Error) : Method A :=
  λ this, (Throw e, this).

Definition register (f : Registered → Registered) : Method unit :=
  λ this, (Normal tt, with_registered f this).

(** *** The inherited registration APIs, as records of their arguments *)

(** [new C(this, ...)]: a component adds itself to its project. *)
Definition new (c : Component) : Method unit :=
  register (λ r,
    {| components := components r ++ [c]; gitignore := gitignore r;
       deps := deps r; devDeps := devDeps r; tasks := tasks r |}).

(** [this.gitignore.exclude(...patterns)]. *)
Definition gitignore_exclude (patterns : list string) : Method unit :=
  register (λ r,
    {| components := components r; gitignore := gitignore r ++ patterns;
       deps := deps r; devDeps := devDeps r; tasks := tasks r |}).

(** [this.addDeps(...deps)]. *)
Definition addDeps (ds : list string) : Method unit :=
  register (λ r,
    {| components := components r; gitignore := gitignore r;
       deps := deps r ++ ds; devDeps := devDeps r; tasks := tasks r |}).

(** [this.addDevDeps(...deps)]. *)
Definition addDevDeps (ds : list string) : Method unit :=
  register (λ r,
    {| components := components r; gitignore := gitignore r;
       deps := deps r; devDeps := devDeps r ++ ds; tasks := tasks r |}).

(** [this.addTask(name, props)]. *)
Definition addTask (name : string) (props : TaskOptions) : Method unit :=
  register (λ r,
    {| components := components r; gitignore := gitignore r;
       deps := deps r; devDeps := devDeps r;
       tasks := tasks r ++ [(name, props)] |}).

(** [if (c) { body }] with no [else]. *)
Definition when (c : bool) (body : Method unit) : Method unit :=
  if c then body else mret tt.

(** ** [RemixAppProject] *)

(** [private addRemixDeps()]. *)
Definition addRemixDeps : Method unit :=
  this ← getThis;
  addDeps [ "@remix-run/cli@" +:+ remixVersion this;
            "@remix-run/data@" +:+ remixVersion this;
            "@remix-run/react@" +:+ remixVersion this;
            "react";
            "react-dom";
            "react-router@^6.0.0-beta.0";
            "react-router-dom@^6.0.0-beta.0" ].

(** Lines 50 to 86: the fields are assigned from the options, each with
    [??] against its own default, and the framework config file is
    created from the assigned fields.  [super] has run and this
    constructor has registered nothing yet. *)
Definition assign_fields (options : RemixAppProjectOptions) : RemixAppProject :=
  let deploymentProvider :=
    opt_depolymentProvider options ?? defaultRemixAppProjectOptions.depolymentProvider in
  let appDirectory :=
    opt_appDirectory options ?? defaultRemixAppProjectOptions.appDirectory in
  let browserBuildDirectory :=
    opt_browserBuildDirectory options ?? defaultRemixAppProjectOptions.browserBuildDirectory in
  let publicPath :=
    opt_publicPath options ?? defaultRemixAppProjectOptions.publicPath in
  let serverBuildDirectory :=
    opt_serverBuildDirectory options ?? defaultRemixAppProjectOptions.serverBuildDirectory in
  let devServerPort :=
    opt_devServerPort options ?? defaultRemixAppProjectOptions.devServerPort in
  let tailwind :=
    opt_tailwind options ?? defaultRemixAppProjectOptions.tailwind in
  let remixVersion :=
    opt_remixVersion options ?? defaultRemixAppProjectOptions.remixVersion in
  let remixConfigFile :=
    RemixConfigFile "remix.config.js"
      {| cfg_appDirectory := appDirectory;
         cfg_browserBuildDirectory := browserBuildDirectory;
         cfg_publicPath := publicPath;
         cfg_serverBuildDirectory := serverBuildDirectory;
         cfg_devServerPort := devServerPort |} in
  {| deploymentProvider := deploymentProvider;
     appDirectory := appDirectory;
     browserBuildDirectory := browserBuildDirectory;
     publicPath := publicPath;
     serverBuildDirectory := serverBuildDirectory;
     devServerPort := devServerPort;
     tailwind := tailwind;
     remixVersion := remixVersion;
     remixConfigFile := remixConfigFile;
     registered :=
       {| components := [remixConfigFile]; gitignore := []; deps := [];
          devDeps := []; tasks := [] |} |}.

(** Lines 88 and 89. *)
Definition ignore_build_output : Method unit :=
  this ← getThis;
  gitignore_exclude ["# Remix"; "/" +:+ browserBuildDirectory this];;
  gitignore_exclude ["# Remix"; "/" +:+ serverBuildDirectory this].

(** Lines 91 to 105: the credential bootstrap. *)
Definition credentials (w : World) : Method unit :=
  if Js.truthy (license w) then
    new (TextFile ".npmrc" false false
           [ "//npm.remix.run/:_authToken=" +:+ Js.interpolate (license w);
             "@remix-run:registry=https://npm.remix.run" ]);;
    addRemixDeps
  else if existsSync w npmrc then
    addRemixDeps
  else
    throw {| message := "Environment variable REMIX_RUN_LICENSE not set" |}.

(** Lines 109 to 132. *)
Definition express : Method unit :=
  this ← getThis;
  addDeps [ "@remix-run/express@" +:+ remixVersion this; "express"; "morgan" ];;
  addDevDeps [ "pm2" ];;
  new (Pm2ConfigFile "pm2.config.js");;
  addTask "build"
    {| description := "Builds the project"; category := BUILD;
       exec := "remix build" |};;
  addTask "dev"
    {| description := "Start dev server"; category := BUILD;
       exec := "pm2-dev pm2.config.js" |};;
  addTask "start"
    {| description := "Start server"; category := RELEASE;
       exec := "node server.js" |}.

(** Lines 134 to 155. *)
Definition vercel : Method unit :=
  this ← getThis;
  addDeps [ "@remix-run/vercel@" +:+ remixVersion this; "@vercel/node@1.8.3" ];;
  addDevDeps [ "vercel"; "concurrently" ];;
  addTask "predeploy"
    {| description := "Builds the project"; category := BUILD;
       exec := "remix build" |};;
  addTask "deploy"
    {| description := "Deploy to vercel"; category := RELEASE;
       exec := "vercel" |};;
  addTask "start"
    {| description := "Start server"; category := RELEASE;
       exec := "concurrently " +:+ Js.dq +:+ "remix run" +:+ Js.dq +:+ " "
               +:+ Js.dq +:+ "vercel dev" +:+ Js.dq |}.

(** The constructor body after the field assignments (lines 88 to 159). *)
Definition constructor_body (w : World) : Method unit :=
  ignore_build_output;;
  credentials w;;
  addDevDeps [ "@types/react"; "@types/react-dom" ];;
  this ← getThis;
  when (bool_decide (deploymentProvider this = EXPRESS)) express;;
  when (bool_decide (deploymentProvider this = VERCEL)) vercel;;
  when (tailwind this) (new (PostCss true)).

(** [new RemixAppProject(options)] in the world [w]: how the constructor
    completes, and the project object at that point. *)
Definition constructor (w : World) (options : RemixAppProjectOptions)
    : completion unit * RemixAppProject :=
  constructor_body w (assign_fields options).

(** The exception of the credential bootstrap. *)
Definition MissingCredentials : Error :=
  {| message := "Environment variable REMIX_RUN_LICENSE not set" |}.

(** ** Sample inputs *)

(** [new RemixAppProject({})]: no option is supplied. *)
Definition no_options : RemixAppProjectOptions :=
  {| opt_remixVersion := Js.undefined;
     opt_depolymentProvider := Js.undefined;
     opt_appDirectory := Js.undefined;
     opt_browserBuildDirectory := Js.undefined;
     opt_publicPath := Js.undefined;
     opt_serverBuildDirectory := Js.undefined;
     opt_devServerPort := Js.undefined;
     opt_tailwind := Js.undefined |}.

Definition vercel_options : RemixAppProjectOptions :=
  {| opt_remixVersion := Js.value "0.14.0";
     opt_depolymentProvider := Js.value VERCEL;
     opt_appDirectory := Js.undefined;
     opt_browserBuildDirectory := Js.undefined;
     opt_publicPath := Js.undefined;
     opt_serverBuildDirectory := Js.undefined;
     opt_devServerPort := Js.undefined;
     opt_tailwind := Js.value true |}.

(** Every supplied value is a falsy one. *)
Definition falsy_options : RemixAppProjectOptions :=
  {| opt_remixVersion := Js.value "";
     opt_depolymentProvider := Js.null;
     opt_appDirectory := Js.value "";
     opt_browserBuildDirectory := Js.value "";
     opt_publicPath := Js.value "";
     opt_serverBuildDirectory := Js.value "";
     opt_devServerPort := Js.value 0;
     opt_tailwind := Js.value false |}.

(** The licence token is in the environment, no file on disk. *)
Definition token_world : World :=
  {| process_env := {[ REMIX_RUN_LICENSE := "s3cr3t" ]}; disk := ∅ |}.

(** No token, and [.npmrc] is on disk. *)
Definition file_world : World :=
  {| process_env := ∅; disk := {[ npmrc ]} |}.

(** The variable is set to the empty string, no file on disk. *)
Definition empty_license_world : World :=
  {| process_env := {[ REMIX_RUN_LICENSE := "" ]}; disk := ∅ |}.

(** The variable is set to the empty string, and [.npmrc] is on disk. *)
Definition empty_license_file_world : World :=
  {| process_env := {[ REMIX_RUN_LICENSE := "" ]}; disk := {[ npmrc ]} |}.

(** Neither. *)
Definition bare_world : World :=
  {| process_env := ∅; disk := ∅ |}.

(** ** What is registered, read off the project object *)

(** A dependency declaration [d] is on the package [pkg]: the package name
    alone, or the name followed by [@] and a version range. *)
Definition declares (pkg d : string) : bool :=
  String.eqb d pkg || String.prefix (pkg +:+ "@") d.

Definition requires (r : Registered) (pkg : string) : bool :=
  existsb (declares pkg) (deps r ++ devDeps r).

Definition has_task (r : Registered) (name : string) : bool :=
  existsb (λ t, String.eqb (fst t) name) (tasks r).

Definition has_file (r : Registered) (p : string) : bool :=
  existsb (λ c, bool_decide (component_path c = Some p)) (components r).

(** The git-ignore lines that are rules: a line that starts with [#] is a
    comment of the git-ignore format. *)
Definition ignore_rules (r : Registered) : list string :=
  List.filter (λ line, negb (String.prefix "#" line)) (gitignore r).

(** The runtime dependencies of [addRemixDeps] at the version [v]. *)
Definition remix_deps (v : string) : list string :=
  [ "@remix-run/cli@" +:+ v; "@remix-run/data@" +:+ v;
    "@remix-run/react@" +:+ v; "react"; "react-dom";
    "react-router@^6.0.0-beta.0"; "react-router-dom@^6.0.0-beta.0" ].

(** [t] has [s] as a contiguous part. *)
Definition contains (t s : string) : Prop :=
  ∃ pre post : string, t = pre +:+ s +:+ post.

(** ** The outcome of a construction *)

Definition completes (w : World) (options : RemixAppProjectOptions)
    : completion unit :=
  fst (constructor w options).

Definition constructed (w : World) (options : RemixAppProjectOptions)
    : RemixAppProject :=
  snd (constructor w options).

Definition registrations (w : World) (options : RemixAppProjectOptions)
    : Registered :=
  registered (constructed w options).

(** No optional field is supplied: each is [undefined] or [null]. *)
Definition supplies_nothing (options : RemixAppProjectOptions) : bool :=
  Js.is_nullish (opt_remixVersion options)
  && Js.is_nullish (opt_depolymentProvider options)
  && Js.is_nullish (opt_appDirectory options)
  && Js.is_nullish (opt_browserBuildDirectory options)
  && Js.is_nullish (opt_publicPath options)
  && Js.is_nullish (opt_serverBuildDirectory options)
  && Js.is_nullish (opt_devServerPort options)
  && Js.is_nullish (opt_tailwind options).

(** Everything only the EXPRESS branch registers, and everything only the
    VERCEL branch registers; the [start] task is common to both. *)
Definition express_registered (r : Registered) : bool :=
  requires r "@remix-run/express" && requires r "express"
  && requires r "morgan" && requires r "pm2"
  && has_file r "pm2.config.js"
  && has_task r "build" && has_task r "dev".

Definition express_absent (r : Registered) : bool :=
  negb (requires r "@remix-run/express") && negb (requires r "express")
  && negb (requires r "morgan") && negb (requires r "pm2")
  && negb (has_file r "pm2.config.js")
  && negb (has_task r "build") && negb (has_task r "dev").

Definition vercel_registered (r : Registered) : bool :=
  requires r "@remix-run/vercel" && requires r "@vercel/node"
  && requires r "vercel" && requires r "concurrently"
  && has_task r "predeploy" && has_task r "deploy".

Definition vercel_absent (r : Registered) : bool :=
  negb (requires r "@remix-run/vercel") && negb (requires r "@vercel/node")
  && negb (requires r "vercel") && negb (requires r "concurrently")
  && negb (has_task r "predeploy") && negb (has_task r "deploy").

(** Two option records for the config file that agree on the four
    directory and path fields. *)
Definition same_layout (o o' : RemixConfigFileOptions) : Prop :=
  cfg_appDirectory o = cfg_appDirectory o'
  ∧ cfg_browserBuildDirectory o = cfg_browserBuildDirectory o'
  ∧ cfg_publicPath o = cfg_publicPath o'
  ∧ cfg_serverBuildDirectory o = cfg_serverBuildDirectory o'.

(** [text.includes(needle)], by trying every position. *)
Fixpoint includes (needle text : string) : bool :=
  String.prefix needle text
  || match text with
     | EmptyString => false
     | String _ rest => includes needle rest
     end.

(** The default layout with the port [port]. *)
Definition default_layout (port : Z) : RemixConfigFileOptions :=
  {| cfg_appDirectory := "app";
     cfg_browserBuildDirectory := "public/build";
     cfg_publicPath := "/build/";
     cfg_serverBuildDirectory := "build";
     cfg_devServerPort := port |}.

(** ** Relations between project objects *)

(** The PostCss add-ons among the components. *)
Definition is_PostCss (c : Component) : bool :=
  match c with
  | PostCss _ => true
  | _ => false
  end.

(** [r'] extends [r]: each record of [r] is an initial part of the same
    record of [r']. *)
Definition extends (r r' : Registered) : Prop :=
  components r `prefix_of` components r'
  ∧ gitignore r `prefix_of` gitignore r'
  ∧ deps r `prefix_of` deps r'
  ∧ devDeps r `prefix_of` devDeps r'
  ∧ tasks r `prefix_of` tasks r'.

(** The two objects have the same fields of the class itself. *)
Definition same_fields (this this' : RemixAppProject) : Prop :=
  deploymentProvider this = deploymentProvider this'
  ∧ appDirectory this = appDirectory this'
  ∧ browserBuildDirectory this = browserBuildDirectory this'
  ∧ publicPath this = publicPath this'
  ∧ serverBuildDirectory this = serverBuildDirectory this'
  ∧ devServerPort this = devServerPort this'
  ∧ tailwind this = tailwind this'
  ∧ remixVersion this = remixVersion this'
  ∧ remixConfigFile this = remixConfigFile this'.

(** The method [m] only appends: run from any object, it leaves the
    fields of the class as they are and extends what is registered, however
    it completes. *)
Definition only_appends {A : Type} (m : Method A) : Prop :=
  ∀ this : RemixAppProject,
    same_fields this (snd (m this))
    ∧ extends (registered this) (registered (snd (m this))).

(** A project object as [super] could leave it: something registered
    already. *)
Definition inherited_project : RemixAppProject :=
  with_registered
    (λ _, {| components := [TextFile "README.md" true false ["# app"]];
             gitignore := ["node_modules/"];
             deps := [];
             devDeps := ["typescript"];
             tasks := [("compile", {| description := "Only compile";
                                      category := BUILD; exec := "tsc" |})] |})
    (assign_fields vercel_options).

(** The token among other variables, and files other than [.npmrc]. *)
Definition busy_world : World :=
  {| process_env :=
       {[ "PATH" := "/usr/bin"; REMIX_RUN_LICENSE := "s3cr3t"; "HOME" := "/root" ]};
     disk := {[ "package.json"; ".npmrc.bak" ]} |}.

(** The first thirteen characters of a dependency declaration. *)
Definition declared_head (d : string) : string := String.substring 0 13 d.

(** The token and a credentials file are both there. *)
Definition token_file_world : World :=
  {| process_env := {[ REMIX_RUN_LICENSE := "s3cr3t" ]}; disk := {[ npmrc ]} |}.

(** ** Basic facts *)

(** The rendered texts have the byte lengths of the source texts. *)
Example createRemixConfig_default_length :
  String.length (createRemixConfig
    {| cfg_appDirectory := "app"; cfg_browserBuildDirectory := "public/build";
       cfg_publicPath := "/build/"; cfg_serverBuildDirectory := "build";
       cfg_devServerPort := 8002 |}) = 1778%nat
  /\ String.length pm2Config = 407%nat.
Proof. split; vm_compute; reflexivity. Qed.

Lemma truthy_false_iff (x : option string) :
  Js.truthy x = false ↔ x = None ∨ x = Some "".
Proof.
  destruct x as [[|c s]|]; simpl; split; intros H; auto.
  - discriminate.
  - destruct H as [H|H]; discriminate.
Qed.

Lemma truthy_true_iff (x : option string) :
  Js.truthy x = true ↔ ∃ token, x = Some token ∧ token ≠ "".
Proof.
  destruct x as [[|c s]|]; simpl; split; intros H; try discriminate.
  - destruct H as (t & [= <-] & Hne). congruence.
  - exists (String c s). split; [reflexivity | discriminate].
  - reflexivity.
  - destruct H as (t & [=] & _).
Qed.

Lemma existsSync_true (w : World) (p : string) :
  existsSync w p = true ↔ p ∈ disk w.
Proof. unfold existsSync. apply bool_decide_eq_true. Qed.

Lemma existsSync_false (w : World) (p : string) :
  existsSync w p = false ↔ p ∉ disk w.
Proof. unfold existsSync. apply bool_decide_eq_false. Qed.

Lemma string_app_assoc (a b c : string) : (a +:+ b) +:+ c = a +:+ (b +:+ c).
Proof.
  induction a as [|x a IH]; [reflexivity|].
  change (String x ((a +:+ b) +:+ c) = String x (a +:+ b +:+ c)).
  now rewrite IH.
Qed.

(** The constructor is run by cases on the four conditions it tests: the
    licence token, the file on disk, the provider and the tailwind flag. *)
Ltac constructor_split w options :=
  unfold constructor, constructor_body, credentials;
  destruct options as [v p a b pp s port t];
  destruct (Js.truthy (license w)) eqn:Htoken;
  destruct (existsSync w npmrc) eqn:Hfile;
  destruct p as [| |[|]], t as [| |[|]].

Ltac constructor_cases w options := constructor_split w options; cbn.

(** How the constructor completes. *)
Lemma constructor_completion (w : World) (options : RemixAppProjectOptions) :
  fst (constructor w options) =
    if Js.truthy (license w) || existsSync w npmrc
    then Normal tt else Throw MissingCredentials.
Proof. constructor_cases w options; reflexivity. Qed.

(** Registration never assigns a field. *)
Lemma constructor_fields (w : World) (options : RemixAppProjectOptions) :
  with_registered (λ _, nothing_registered) (snd (constructor w options)) =
  with_registered (λ _, nothing_registered) (assign_fields options).
Proof. constructor_cases w options; reflexivity. Qed.

(** The constructor reads the world only through the truthiness of the
    token, the token itself when it is truthy, and the existence of the
    credentials file. *)
Lemma constructor_without_token (w w' : World) (options : RemixAppProjectOptions) :
  Js.truthy (license w) = false →
  Js.truthy (license w') = false →
  existsSync w npmrc = existsSync w' npmrc →
  constructor w options = constructor w' options.
Proof.
  intros Hw Hw' Hfile. unfold constructor, constructor_body, credentials.
  now rewrite Hw, Hw', Hfile.
Qed.

(** * Credential bootstrap *)

(** C1, as stated, fails.  With [REMIX_RUN_LICENSE] set to the empty string
    and no [.npmrc] on disk the constructor throws, although the variable is
    not unset: throwing is not equivalent to (unset and no file). *)
Lemma missing_credentials_iff_unset_fails :
  ¬ (completes empty_license_world no_options = Throw MissingCredentials
     ↔ process_env empty_license_world !! REMIX_RUN_LICENSE = None
       ∧ npmrc ∉ disk empty_license_world).
Proof.
  intros [Hthrow _].
  assert (Hnone : process_env empty_license_world !! REMIX_RUN_LICENSE = None)
    by (apply Hthrow; vm_compute; reflexivity).
  vm_compute in Hnone. discriminate Hnone.
Qed.

(** C1, amended.  The constructor throws the missing-credentials error if
    and only if [REMIX_RUN_LICENSE] is unset or empty and [.npmrc] does not
    exist; it completes if and only if the variable holds a non-empty token
    or the file exists, and then the framework runtime dependencies and the
    two type-declaration dependencies have been registered, ahead of any
    other dependency. *)
Theorem missing_credentials_iff (w : World) (options : RemixAppProjectOptions) :
  (completes w options = Throw MissingCredentials
     ↔ (process_env w !! REMIX_RUN_LICENSE = None
        ∨ process_env w !! REMIX_RUN_LICENSE = Some "")
       ∧ npmrc ∉ disk w)
  ∧ (completes w options = Normal tt
     ↔ (∃ token, process_env w !! REMIX_RUN_LICENSE = Some token ∧ token ≠ "")
       ∨ npmrc ∈ disk w)
  ∧ (completes w options = Normal tt →
     firstn 7 (deps (registrations w options))
       = remix_deps (remixVersion (constructed w options))
     ∧ firstn 2 (devDeps (registrations w options))
       = ["@types/react"; "@types/react-dom"]).
Proof.
  unfold completes. rewrite constructor_completion.
  pose proof (truthy_false_iff (license w)) as Hf.
  pose proof (truthy_true_iff (license w)) as Ht.
  pose proof (existsSync_true w npmrc) as He.
  pose proof (existsSync_false w npmrc) as Hn.
  unfold license in Hf, Ht.
  split; [|split].
  - destruct (Js.truthy (license w)) eqn:Htok, (existsSync w npmrc) eqn:Hex;
      unfold license in Htok; simpl; split;
      try discriminate; try (intros _; tauto);
      intros [Hfalsy Hmissing];
      try (apply Hf in Hfalsy; congruence);
      try (apply Hn in Hmissing; congruence).
  - destruct (Js.truthy (license w)) eqn:Htok, (existsSync w npmrc) eqn:Hex;
      unfold license in Htok; simpl; split;
      try discriminate; try (intros _; tauto); try reflexivity.
    intros [Htoken | Hfile].
    + apply Ht in Htoken. congruence.
    + apply He in Hfile. congruence.
  - unfold registrations, constructed. clear Hf Ht He Hn.
    constructor_split w options; intros H; vm_compute in H;
      try discriminate H; split; vm_compute; reflexivity.
Qed.

(** C9.  When [REMIX_RUN_LICENSE] is set to the empty string the
    constructor behaves as if the variable were unset: no [.npmrc] file is
    registered, the outcome is decided by the file on disk (an exception
    when it is missing, completion when it exists), and the whole result
    equals that of the same world with the variable removed. *)
Theorem empty_license_is_absent (w : World) (options : RemixAppProjectOptions) :
  process_env w !! REMIX_RUN_LICENSE = Some "" →
  has_file (registrations w options) ".npmrc" = false
  ∧ (npmrc ∉ disk w → completes w options = Throw MissingCredentials)
  ∧ (npmrc ∈ disk w → completes w options = Normal tt)
  ∧ constructor w options
    = constructor {| process_env := delete REMIX_RUN_LICENSE (process_env w);
                     disk := disk w |} options.
Proof.
  intros Hempty.
  assert (Hfalsy : Js.truthy (license w) = false)
    by (unfold license; now rewrite Hempty).
  repeat split.
  - unfold registrations, constructed.
    constructor_cases w options; try discriminate Hfalsy; reflexivity.
  - intros Hmissing%existsSync_false. unfold completes.
    now rewrite constructor_completion, Hfalsy, Hmissing.
  - intros Hfile%existsSync_true. unfold completes.
    now rewrite constructor_completion, Hfalsy, Hfile.
  - apply constructor_without_token; [exact Hfalsy | | reflexivity].
    unfold license; simpl. now rewrite lookup_delete_eq.
Qed.

(** The empty token with the file missing, and with the file on disk. *)
Lemma empty_license_is_absent_witness :
  (has_file (registrations empty_license_world no_options) ".npmrc" = false
   ∧ completes empty_license_world no_options = Throw MissingCredentials)
  ∧ (has_file (registrations empty_license_file_world no_options) ".npmrc" = false
     ∧ completes empty_license_file_world no_options = Normal tt).
Proof.
  split.
  - destruct (empty_license_is_absent empty_license_world no_options)
      as (Hnone & Hthrow & _).
    + vm_compute; reflexivity.
    + split; [exact Hnone | apply Hthrow; apply existsSync_false; vm_compute; reflexivity].
  - destruct (empty_license_is_absent empty_license_file_world no_options)
      as (Hnone & _ & Hok & _).
    + vm_compute; reflexivity.
    + split; [exact Hnone | apply Hok; apply existsSync_true; vm_compute; reflexivity].
Defined.

(** C10.  When [REMIX_RUN_LICENSE] holds a non-empty token, the one file
    registered at [.npmrc] is a text file that is neither committed nor
    read-only, with exactly two lines: the auth-token line ending in the
    token as it stands, and the registry line. *)
Theorem npmrc_from_token (w : World) (options : RemixAppProjectOptions)
    (token : string) :
  process_env w !! REMIX_RUN_LICENSE = Some token →
  token ≠ "" →
  List.filter (λ c, bool_decide (component_path c = Some ".npmrc"))
              (components (registrations w options))
  = [ TextFile ".npmrc" false false
        [ "//npm.remix.run/:_authToken=" +:+ token;
          "@remix-run:registry=https://npm.remix.run" ] ].
Proof.
  intros Hset Hne.
  assert (Htruthy : Js.truthy (license w) = true)
    by (apply truthy_true_iff; exists token; split; assumption).
  assert (Hlic : license w = Some token) by exact Hset.
  unfold registrations, constructed.
  constructor_split w options; try discriminate Htruthy;
    rewrite Hlic; reflexivity.
Qed.

(** The token [s3cr3t] on a VERCEL project. *)
Lemma npmrc_from_token_witness :
  List.filter (λ c, bool_decide (component_path c = Some ".npmrc"))
              (components (registrations token_world vercel_options))
  = [ TextFile ".npmrc" false false
        [ "//npm.remix.run/:_authToken=s3cr3t";
          "@remix-run:registry=https://npm.remix.run" ] ].
Proof.
  apply (npmrc_from_token token_world vercel_options "s3cr3t").
  - vm_compute; reflexivity.
  - discriminate.
Defined.

(** C8.  Started from the same project object, the branch taken when the
    credentials file exists and the variable is unset registers the same
    runtime dependencies as the branch taken when the variable holds a
    token: the three [@remix-run] packages at the resolved version,
    [react], [react-dom], and the two router packages at [^6.0.0-beta.0].
    The file branch adds no component, so no credentials file; the token
    branch adds the [.npmrc] text file.  Hence two constructions from the
    same options register the same dependencies. *)
Theorem file_branch_registers_same_deps (wa wb : World) (token : string)
    (this : RemixAppProject) (options : RemixAppProjectOptions) :
  process_env wa !! REMIX_RUN_LICENSE = Some token →
  token ≠ "" →
  process_env wb !! REMIX_RUN_LICENSE = None →
  npmrc ∈ disk wb →
  let a := credentials wa this in
  let b := credentials wb this in
  fst a = Normal tt ∧ fst b = Normal tt
  ∧ deps (registered (snd a))
    = deps (registered this)
      ++ [ "@remix-run/cli@" +:+ remixVersion this;
           "@remix-run/data@" +:+ remixVersion this;
           "@remix-run/react@" +:+ remixVersion this;
           "react"; "react-dom";
           "react-router@^6.0.0-beta.0"; "react-router-dom@^6.0.0-beta.0" ]
  ∧ deps (registered (snd b)) = deps (registered (snd a))
  ∧ components (registered (snd b)) = components (registered this)
  ∧ components (registered (snd a))
    = components (registered this)
      ++ [ TextFile ".npmrc" false false
             [ "//npm.remix.run/:_authToken=" +:+ token;
               "@remix-run:registry=https://npm.remix.run" ] ]
  ∧ deps (registrations wb options) = deps (registrations wa options)
  ∧ has_file (registrations wb options) ".npmrc" = false.
Proof.
  intros Hset Hne Hunset Hfile a b. subst a b.
  assert (Ha : Js.truthy (license wa) = true)
    by (apply truthy_true_iff; exists token; split; assumption).
  assert (Hlic : license wa = Some token) by exact Hset.
  assert (Hb : Js.truthy (license wb) = false)
    by (unfold license; now rewrite Hunset).
  apply existsSync_true in Hfile.
  unfold credentials. rewrite Ha, Hb, Hfile, Hlic.
  repeat split.
  - unfold registrations, constructed, constructor, constructor_body, credentials.
    rewrite Ha, Hb, Hfile.
    destruct options as [v p x y pp s port t].
    destruct p as [| |[|]], t as [| |[|]]; reflexivity.
  - unfold registrations, constructed, constructor, constructor_body, credentials.
    rewrite Hb, Hfile.
    destruct options as [v p x y pp s port t].
    destruct p as [| |[|]], t as [| |[|]]; reflexivity.
Qed.

(** The token world against the file world, on the same options. *)
Lemma file_branch_registers_same_deps_witness :
  deps (registrations file_world vercel_options)
  = deps (registrations token_world vercel_options)
  ∧ has_file (registrations file_world vercel_options) ".npmrc" = false.
Proof.
  assert (H := file_branch_registers_same_deps token_world file_world "s3cr3t"
                 (assign_fields vercel_options) vercel_options
                 ltac:(vm_compute; reflexivity)
                 ltac:(discriminate)
                 ltac:(vm_compute; reflexivity)
                 ltac:(apply existsSync_true; vm_compute; reflexivity)).
  cbv zeta in H.
  destruct H as (_ & _ & _ & _ & _ & _ & Hdeps & Hfile).
  split; assumption.
Defined.

(** * Option resolution *)

Lemma nullish_default {A : Type} (x : Js.optional A) (d : A) :
  Js.is_nullish x = true → x ?? d = d.
Proof. destruct x; [reflexivity | reflexivity | discriminate]. Qed.

(** The fields of the constructed project, as the source assigns them. *)
Lemma constructed_resolved (w : World) (options : RemixAppProjectOptions) :
  remixVersion (constructed w options)
    = opt_remixVersion options ?? defaultRemixAppProjectOptions.remixVersion
  ∧ deploymentProvider (constructed w options)
    = opt_depolymentProvider options ?? defaultRemixAppProjectOptions.depolymentProvider
  ∧ appDirectory (constructed w options)
    = opt_appDirectory options ?? defaultRemixAppProjectOptions.appDirectory
  ∧ browserBuildDirectory (constructed w options)
    = opt_browserBuildDirectory options
        ?? defaultRemixAppProjectOptions.browserBuildDirectory
  ∧ publicPath (constructed w options)
    = opt_publicPath options ?? defaultRemixAppProjectOptions.publicPath
  ∧ serverBuildDirectory (constructed w options)
    = opt_serverBuildDirectory options
        ?? defaultRemixAppProjectOptions.serverBuildDirectory
  ∧ devServerPort (constructed w options)
    = opt_devServerPort options ?? defaultRemixAppProjectOptions.devServerPort
  ∧ tailwind (constructed w options)
    = opt_tailwind options ?? defaultRemixAppProjectOptions.tailwind.
Proof.
  unfold constructed.
  pose proof (constructor_fields w options) as Hfields.
  destruct (snd (constructor w options)) as [dp ad bd pp sd port tw rv cfg r].
  unfold with_registered in Hfields; simpl in Hfields.
  injection Hfields as -> -> -> -> -> -> -> -> ->.
  repeat split.
Qed.

(** C3.  When no optional field is supplied, the fields of the project are
    the documented defaults. *)
Theorem defaults_when_nothing_supplied (w : World)
    (options : RemixAppProjectOptions) :
  supplies_nothing options = true →
  ( remixVersion (constructed w options),
    deploymentProvider (constructed w options),
    appDirectory (constructed w options),
    browserBuildDirectory (constructed w options),
    publicPath (constructed w options),
    serverBuildDirectory (constructed w options),
    devServerPort (constructed w options),
    tailwind (constructed w options) )
  = ("0.13.1", EXPRESS, "app", "public/build", "/build/", "build", 8002, false).
Proof.
  intros Hnone. unfold supplies_nothing in Hnone.
  repeat (apply andb_prop in Hnone as [Hnone ?]).
  destruct (constructed_resolved w options)
    as (-> & -> & -> & -> & -> & -> & -> & ->).
  now rewrite !nullish_default by assumption.
Qed.

(** The empty options record. *)
Lemma defaults_when_nothing_supplied_witness :
  ( remixVersion (constructed file_world no_options),
    deploymentProvider (constructed file_world no_options),
    appDirectory (constructed file_world no_options),
    browserBuildDirectory (constructed file_world no_options),
    publicPath (constructed file_world no_options),
    serverBuildDirectory (constructed file_world no_options),
    devServerPort (constructed file_world no_options),
    tailwind (constructed file_world no_options) )
  = ("0.13.1", EXPRESS, "app", "public/build", "/build/", "build", 8002, false).
Proof.
  apply (defaults_when_nothing_supplied file_world no_options).
  vm_compute; reflexivity.
Defined.

(** C4.  Each field of the project is decided by its own option alone: a
    supplied value, whatever it is, becomes the field; [undefined] and
    [null], and only they, give the default. *)
Theorem supplied_value_overrides (w : World) (options : RemixAppProjectOptions) :
  remixVersion (constructed w options)
    = match opt_remixVersion options with
      | Js.value v => v | Js.undefined | Js.null => "0.13.1" end
  ∧ deploymentProvider (constructed w options)
    = match opt_depolymentProvider options with
      | Js.value v => v | Js.undefined | Js.null => EXPRESS end
  ∧ appDirectory (constructed w options)
    = match opt_appDirectory options with
      | Js.value v => v | Js.undefined | Js.null => "app" end
  ∧ browserBuildDirectory (constructed w options)
    = match opt_browserBuildDirectory options with
      | Js.value v => v | Js.undefined | Js.null => "public/build" end
  ∧ publicPath (constructed w options)
    = match opt_publicPath options with
      | Js.value v => v | Js.undefined | Js.null => "/build/" end
  ∧ serverBuildDirectory (constructed w options)
    = match opt_serverBuildDirectory options with
      | Js.value v => v | Js.undefined | Js.null => "build" end
  ∧ devServerPort (constructed w options)
    = match opt_devServerPort options with
      | Js.value v => v | Js.undefined | Js.null => 8002 end
  ∧ tailwind (constructed w options)
    = match opt_tailwind options with
      | Js.value v => v | Js.undefined | Js.null => false end.
Proof.
  destruct (constructed_resolved w options)
    as (-> & -> & -> & -> & -> & -> & -> & ->).
  destruct options as [v p a b q s n t]; simpl.
  repeat split;
    match goal with |- _ = match ?x with _ => _ end => destruct x end;
    reflexivity.
Qed.

(** Falsy values are values: port [0], empty strings and [false] all
    override, while the [null] provider falls back to the default. *)
Example falsy_values_override :
  devServerPort (constructed file_world falsy_options) = 0
  ∧ appDirectory (constructed file_world falsy_options) = ""
  ∧ publicPath (constructed file_world falsy_options) = ""
  ∧ remixVersion (constructed file_world falsy_options) = ""
  ∧ tailwind (constructed file_world falsy_options) = false
  ∧ deploymentProvider (constructed file_world falsy_options) = EXPRESS.
Proof. vm_compute. repeat split. Qed.

(** * Provider registration *)

(** C2.  On a completed construction the registered tasks are exactly the
    three of the resolved provider: [build], [dev] and [start] for EXPRESS;
    [predeploy], [deploy] and [start] for VERCEL, with the commands and
    categories of the source. *)
Theorem provider_tasks (w : World) (options : RemixAppProjectOptions) :
  completes w options = Normal tt →
  tasks (registrations w options) =
    match deploymentProvider (constructed w options) with
    | EXPRESS =>
        [ ("build", {| description := "Builds the project"; category := BUILD;
                       exec := "remix build" |});
          ("dev", {| description := "Start dev server"; category := BUILD;
                     exec := "pm2-dev pm2.config.js" |});
          ("start", {| description := "Start server"; category := RELEASE;
                       exec := "node server.js" |}) ]
    | VERCEL =>
        [ ("predeploy", {| description := "Builds the project"; category := BUILD;
                           exec := "remix build" |});
          ("deploy", {| description := "Deploy to vercel"; category := RELEASE;
                        exec := "vercel" |});
          ("start", {| description := "Start server"; category := RELEASE;
                       exec := "concurrently " +:+ Js.dq +:+ "remix run" +:+ Js.dq
                               +:+ " " +:+ Js.dq +:+ "vercel dev" +:+ Js.dq |}) ]
    end.
Proof.
  unfold completes, registrations, constructed.
  constructor_cases w options; intros H; try discriminate H; reflexivity.
Qed.

(** One completed construction per provider. *)
Lemma provider_tasks_witness :
  map fst (tasks (registrations token_world no_options)) = ["build"; "dev"; "start"]
  ∧ map fst (tasks (registrations file_world vercel_options))
    = ["predeploy"; "deploy"; "start"].
Proof.
  split.
  - rewrite (provider_tasks token_world no_options); vm_compute; reflexivity.
  - rewrite (provider_tasks file_world vercel_options); vm_compute; reflexivity.
Defined.

(** C5.  With EXPRESS resolved, no VERCEL dependency or task is registered;
    with VERCEL resolved, no EXPRESS dependency, process-manager config
    file or EXPRESS-only task is registered; and a construction that
    completes has registered all of the resolved provider's: exactly one
    branch has run. *)
Theorem one_provider_branch (w : World) (options : RemixAppProjectOptions) :
  (deploymentProvider (constructed w options) = EXPRESS →
     vercel_absent (registrations w options) = true)
  ∧ (deploymentProvider (constructed w options) = VERCEL →
     express_absent (registrations w options) = true)
  ∧ (completes w options = Normal tt →
     match deploymentProvider (constructed w options) with
     | EXPRESS => express_registered (registrations w options) = true
     | VERCEL => vercel_registered (registrations w options) = true
     end).
Proof.
  unfold completes, registrations, constructed.
  constructor_split w options; destruct v as [| |[|c version]];
    repeat split; intros H; cbn in H; discriminate H.
Qed.

(** Each provider leaves the other one out. *)
Lemma one_provider_branch_witness :
  (vercel_absent (registrations token_world no_options) = true
   ∧ express_registered (registrations token_world no_options) = true)
  ∧ (express_absent (registrations token_world vercel_options) = true
     ∧ vercel_registered (registrations token_world vercel_options) = true).
Proof.
  split.
  - destruct (one_provider_branch token_world no_options) as (Hv & _ & Hrun).
    split; [apply Hv | apply Hrun]; vm_compute; reflexivity.
  - destruct (one_provider_branch token_world vercel_options) as (_ & He & Hrun).
    split; [apply He | apply Hrun]; vm_compute; reflexivity.
Defined.

(** * Git-ignore *)

(** C6.  The constructor passes to the git-ignore file the heading
    [# Remix] and the browser build directory, then the same heading and
    the server build directory, each directory after a [/]; so the rules
    it adds are exactly these two. *)
Theorem gitignore_build_directories (w : World)
    (options : RemixAppProjectOptions) :
  gitignore (registrations w options)
  = [ "# Remix"; "/" +:+ browserBuildDirectory (constructed w options);
      "# Remix"; "/" +:+ serverBuildDirectory (constructed w options) ]
  ∧ ignore_rules (registrations w options)
    = [ "/" +:+ browserBuildDirectory (constructed w options);
        "/" +:+ serverBuildDirectory (constructed w options) ].
Proof.
  unfold ignore_rules, registrations, constructed.
  constructor_cases w options; split; reflexivity.
Qed.

(** * Framework config text *)

(** Where the field labels stand in the constant stretches of the
    template: each stretch ends with the label of the field substituted
    after it, and each but the first starts by closing the quoted value
    before it. *)
Lemma template_labels :
  ∃ m0 m1 m2 m3 m4 : string,
    Template.seg0 = m0 +:+ "appDirectory: '"
    ∧ Template.seg1 = "'," +:+ m1 +:+ "browserBuildDirectory: '"
    ∧ Template.seg2 = "'," +:+ m2 +:+ "publicPath: '"
    ∧ Template.seg3 = "'," +:+ m3 +:+ "serverBuildDirectory: '"
    ∧ Template.seg4 = "'," +:+ m4 +:+ "devServerPort: ".
Proof.
  exists (String.substring 0 (String.length Template.seg0 - 15) Template.seg0),
         (String.substring 2 (String.length Template.seg1 - 26) Template.seg1),
         (String.substring 2 (String.length Template.seg2 - 15) Template.seg2),
         (String.substring 2 (String.length Template.seg3 - 25) Template.seg3),
         (String.substring 2 (String.length Template.seg4 - 17) Template.seg4).
  repeat split; vm_compute; reflexivity.
Qed.

(** C7.  The text of the framework config has, for each of the four string
    fields, the line part [label: 'value',] with the value of the options
    as it stands, and for the port [devServerPort: ] followed by its
    decimal digits and the closing brace.  Two option records that differ
    only in [devServerPort] give texts that agree before and after the
    digits of the port. *)
Theorem framework_config_text (o o' : RemixConfigFileOptions) :
  contains (createRemixConfig o)
           ("appDirectory: '" +:+ cfg_appDirectory o +:+ "',")
  ∧ contains (createRemixConfig o)
             ("browserBuildDirectory: '" +:+ cfg_browserBuildDirectory o +:+ "',")
  ∧ contains (createRemixConfig o)
             ("publicPath: '" +:+ cfg_publicPath o +:+ "',")
  ∧ contains (createRemixConfig o)
             ("serverBuildDirectory: '" +:+ cfg_serverBuildDirectory o +:+ "',")
  ∧ contains (createRemixConfig o)
             ("devServerPort: " +:+ Js.number_to_string (cfg_devServerPort o) +:+ "
};")
  ∧ (same_layout o o' →
     ∃ before after : string,
       createRemixConfig o
         = before +:+ "devServerPort: "
             +:+ Js.number_to_string (cfg_devServerPort o) +:+ after
       ∧ createRemixConfig o'
         = before +:+ "devServerPort: "
             +:+ Js.number_to_string (cfg_devServerPort o') +:+ after).
Proof.
  destruct template_labels as (m0 & m1 & m2 & m3 & m4 & E0 & E1 & E2 & E3 & E4).
  assert (E5 : Template.seg5 = "
};" +:+ " " +:+ "
") by reflexivity.
  unfold createRemixConfig, contains, same_layout.
  rewrite E0, E1, E2, E3, E4, E5.
  destruct o as [a b p s n], o' as [a' b' p' s' n']; simpl.
  repeat split.
  - exists m0. eexists. rewrite !string_app_assoc. reflexivity.
  - exists (m0 +:+ "appDirectory: '" +:+ a +:+ "'," +:+ m1). eexists.
    rewrite !string_app_assoc. reflexivity.
  - exists (m0 +:+ "appDirectory: '" +:+ a +:+ "'," +:+ m1
            +:+ "browserBuildDirectory: '" +:+ b +:+ "'," +:+ m2). eexists.
    rewrite !string_app_assoc. reflexivity.
  - exists (m0 +:+ "appDirectory: '" +:+ a +:+ "'," +:+ m1
            +:+ "browserBuildDirectory: '" +:+ b +:+ "'," +:+ m2
            +:+ "publicPath: '" +:+ p +:+ "'," +:+ m3). eexists.
    rewrite !string_app_assoc. reflexivity.
  - exists (m0 +:+ "appDirectory: '" +:+ a +:+ "'," +:+ m1
            +:+ "browserBuildDirectory: '" +:+ b +:+ "'," +:+ m2
            +:+ "publicPath: '" +:+ p +:+ "'," +:+ m3
            +:+ "serverBuildDirectory: '" +:+ s +:+ "'," +:+ m4). eexists.
    rewrite !string_app_assoc. reflexivity.
  - intros (<- & <- & <- & <-).
    exists (m0 +:+ "appDirectory: '" +:+ a +:+ "'," +:+ m1
            +:+ "browserBuildDirectory: '" +:+ b +:+ "'," +:+ m2
            +:+ "publicPath: '" +:+ p +:+ "'," +:+ m3
            +:+ "serverBuildDirectory: '" +:+ s +:+ "'," +:+ m4).
    eexists. split; rewrite !string_app_assoc; reflexivity.
Qed.

(** The default layout at the ports 8002 and 3000. *)
Lemma framework_config_text_witness :
  ∃ before after : string,
    createRemixConfig (default_layout 8002)
      = before +:+ "devServerPort: " +:+ "8002" +:+ after
    ∧ createRemixConfig (default_layout 3000)
      = before +:+ "devServerPort: " +:+ "3000" +:+ after.
Proof.
  destruct (framework_config_text (default_layout 8002) (default_layout 3000))
    as (_ & _ & _ & _ & _ & Hport).
  apply Hport. repeat split.
Defined.

(** The config file the constructor creates is built from the fields of
    the project, is registered as a component, and synthesizes to the
    rendered template. *)
Lemma constructed_config_file (w : World) (options : RemixAppProjectOptions) :
  remixConfigFile (constructed w options)
  = RemixConfigFile "remix.config.js"
      {| cfg_appDirectory := appDirectory (constructed w options);
         cfg_browserBuildDirectory := browserBuildDirectory (constructed w options);
         cfg_publicPath := publicPath (constructed w options);
         cfg_serverBuildDirectory := serverBuildDirectory (constructed w options);
         cfg_devServerPort := devServerPort (constructed w options) |}
  ∧ List.hd_error (components (registrations w options))
    = Some (remixConfigFile (constructed w options)).
Proof.
  unfold registrations, constructed.
  constructor_cases w options; split; reflexivity.
Qed.

Lemma prefix_app (s t : string) :
  String.prefix s t = true → ∃ post, t = s +:+ post.
Proof.
  revert t. induction s as [|c s IH]; intros t H.
  - exists t. reflexivity.
  - destruct t as [|c' t]; simpl in H; [discriminate|].
    destruct (ascii_dec c c') as [<-|]; [|discriminate].
    destruct (IH t H) as [post ->]. exists post. reflexivity.
Qed.

Lemma includes_unfold (needle text : string) :
  includes needle text
  = String.prefix needle text
    || match text with
       | EmptyString => false
       | String _ rest => includes needle rest
       end.
Proof. destruct text; reflexivity. Qed.

Lemma includes_contains (needle text : string) :
  includes needle text = true → contains text needle.
Proof.
  induction text as [|c text IH]; rewrite includes_unfold; intros H;
    apply orb_prop in H as [H|H].
  - apply prefix_app in H as [post ->]. exists EmptyString, post. reflexivity.
  - discriminate.
  - apply prefix_app in H as [post ->]. exists EmptyString, post. reflexivity.
  - destruct (IH H) as (pre & post & ->). exists (String c pre), post. reflexivity.
Qed.

(** A quote inside a value is not escaped, and port [0] is printed. *)
Example config_text_is_verbatim :
  includes "appDirectory: 'it's',"
    (createRemixConfig
       {| cfg_appDirectory := "it's"; cfg_browserBuildDirectory := "";
          cfg_publicPath := "/"; cfg_serverBuildDirectory := "build";
          cfg_devServerPort := 0 |}) = true
  ∧ includes "devServerPort: 0"
      (createRemixConfig
         {| cfg_appDirectory := "it's"; cfg_browserBuildDirectory := "";
            cfg_publicPath := "/"; cfg_serverBuildDirectory := "build";
            cfg_devServerPort := 0 |}) = true.
Proof. split; vm_compute; reflexivity. Qed.

(** With neither credential source the constructor throws after the
    git-ignore lines and before any dependency. *)
Example bare_world_throws :
  completes bare_world no_options = Throw MissingCredentials
  ∧ gitignore (registrations bare_world no_options)
    = ["# Remix"; "/public/build"; "# Remix"; "/build"]
  ∧ deps (registrations bare_world no_options) = []
  ∧ tasks (registrations bare_world no_options) = [].
Proof. vm_compute. repeat split. Qed.

(** The process-manager file synthesizes to the constant text. *)
Example pm2_file_content :
  synthesizeContent (Pm2ConfigFile "pm2.config.js") = Some pm2Config.
Proof. reflexivity. Qed.

(** * Further properties of the constructor *)

(** ** Appending is kept by every way the source combines methods *)

Lemma same_fields_refl (this : RemixAppProject) : same_fields this this.
Proof. repeat split. Qed.

Lemma same_fields_trans (a b c : RemixAppProject) :
  same_fields a b → same_fields b c → same_fields a c.
Proof.
  unfold same_fields.
  intros (-> & -> & -> & -> & -> & -> & -> & -> & ->) H. exact H.
Qed.

Lemma extends_refl (r : Registered) : extends r r.
Proof. repeat split; reflexivity. Qed.

Lemma extends_trans (a b c : Registered) :
  extends a b → extends b c → extends a c.
Proof.
  intros (H1 & H2 & H3 & H4 & H5) (K1 & K2 & K3 & K4 & K5).
  repeat split; etrans; eassumption.
Qed.

Lemma only_appends_ret {A : Type} (a : A) : only_appends (mret a).
Proof. intros this. split; [apply same_fields_refl | apply extends_refl]. Qed.

Lemma only_appends_getThis : only_appends getThis.
Proof. intros this. split; [apply same_fields_refl | apply extends_refl]. Qed.

Lemma only_appends_throw {A : Type} (e : Error) : only_appends (@throw A e).
Proof. intros this. split; [apply same_fields_refl | apply extends_refl]. Qed.

Lemma only_appends_bind {A B : Type} (m : Method A) (k : A → Method B) :
  only_appends m → (∀ a, only_appends (k a)) → only_appends (m ≫= k).
Proof.
  intros Hm Hk this. unfold mbind, Method_bind.
  destruct (Hm this) as [Hf He].
  destruct (m this) as [[a|e] this']; simpl in *.
  - destruct (Hk a this') as [Hf' He'].
    split; [eapply same_fields_trans | eapply extends_trans]; eassumption.
  - split; assumption.
Qed.

Lemma only_appends_when (c : bool) (body : Method unit) :
  only_appends body → only_appends (when c body).
Proof. destruct c; [trivial | intros _; apply only_appends_ret]. Qed.

Lemma only_appends_new (c : Component) : only_appends (new c).
Proof.
  intros [dp ad bd pp sd port tw rv cfg [cs gi ds dd ts]]; split;
    [repeat split | repeat split; simpl; try reflexivity].
  apply prefix_app_r; reflexivity.
Qed.

Lemma only_appends_gitignore_exclude (patterns : list string) :
  only_appends (gitignore_exclude patterns).
Proof.
  intros [dp ad bd pp sd port tw rv cfg [cs gi ds dd ts]]; split;
    [repeat split | repeat split; simpl; try reflexivity].
  apply prefix_app_r; reflexivity.
Qed.

Lemma only_appends_addDeps (l : list string) : only_appends (addDeps l).
Proof.
  intros [dp ad bd pp sd port tw rv cfg [cs gi ds dd ts]]; split;
    [repeat split | repeat split; simpl; try reflexivity].
  apply prefix_app_r; reflexivity.
Qed.

Lemma only_appends_addDevDeps (l : list string) : only_appends (addDevDeps l).
Proof.
  intros [dp ad bd pp sd port tw rv cfg [cs gi ds dd ts]]; split;
    [repeat split | repeat split; simpl; try reflexivity].
  apply prefix_app_r; reflexivity.
Qed.

Lemma only_appends_addTask (name : string) (props : TaskOptions) :
  only_appends (addTask name props).
Proof.
  intros [dp ad bd pp sd port tw rv cfg [cs gi ds dd ts]]; split;
    [repeat split | repeat split; simpl; try reflexivity].
  apply prefix_app_r; reflexivity.
Qed.

Create HintDb appends.
#[local] Hint Resolve only_appends_ret only_appends_getThis only_appends_throw
  only_appends_when only_appends_new only_appends_gitignore_exclude
  only_appends_addDeps only_appends_addDevDeps only_appends_addTask : appends.

(** A sequence of appending methods appends. *)
Ltac appends :=
  repeat first
    [ apply only_appends_bind; [| intros ? ]
    | apply only_appends_when
    | solve [ auto with appends ] ].

Lemma only_appends_addRemixDeps : only_appends addRemixDeps.
Proof. unfold addRemixDeps. appends. Qed.

Lemma only_appends_credentials (w : World) : only_appends (credentials w).
Proof.
  pose proof only_appends_addRemixDeps.
  unfold credentials.
  destruct (Js.truthy (license w)), (existsSync w npmrc); appends; assumption.
Qed.

Lemma only_appends_express : only_appends express.
Proof. unfold express. appends. Qed.

Lemma only_appends_vercel : only_appends vercel.
Proof. unfold vercel. appends. Qed.

Lemma only_appends_constructor_body (w : World) :
  only_appends (constructor_body w).
Proof.
  pose proof (only_appends_credentials w).
  pose proof only_appends_express.
  pose proof only_appends_vercel.
  unfold constructor_body, ignore_build_output. appends; assumption.
Qed.


(** What [super] had registered is still there after the constructor. *)
Example inherited_registrations_stay :
  extends (registered inherited_project)
          (registered (snd (constructor_body token_file_world inherited_project)))
  ∧ firstn 1 (tasks (registered
                (snd (constructor_body token_file_world inherited_project))))
    = [("compile", {| description := "Only compile"; category := BUILD;
                      exec := "tsc" |})].
Proof.
  split; [apply only_appends_constructor_body | vm_compute; reflexivity].
Qed.

(** X2.  The only exception of the constructor is the missing-credentials
    error, and when it is thrown the project has the framework config file
    and the git-ignore lines registered and nothing else: no dependency,
    no task, no other file. *)
Theorem throw_leaves_config_and_gitignore (w : World)
    (options : RemixAppProjectOptions) (e : Error) :
  completes w options = Throw e →
  e = MissingCredentials
  ∧ registrations w options
    = {| components := [remixConfigFile (constructed w options)];
         gitignore :=
           [ "# Remix"; "/" +:+ browserBuildDirectory (constructed w options);
             "# Remix"; "/" +:+ serverBuildDirectory (constructed w options) ];
         deps := [];
         devDeps := [];
         tasks := [] |}.
Proof.
  unfold completes, registrations, constructed.
  constructor_cases w options; intros H; try discriminate H;
    injection H as <-; split; reflexivity.
Qed.

(** The bare world: neither token nor file. *)
Lemma throw_leaves_config_and_gitignore_witness :
  deps (registrations bare_world vercel_options) = []
  ∧ tasks (registrations bare_world vercel_options) = []
  ∧ length (components (registrations bare_world vercel_options)) = 1%nat.
Proof.
  destruct (throw_leaves_config_and_gitignore bare_world vercel_options
              MissingCredentials ltac:(vm_compute; reflexivity)) as [_ ->].
  repeat split.
Defined.

(** X3.  On a completed construction the components are, in this order:
    the framework config file; the [.npmrc] text file when the variable
    holds a non-empty token; the process-manager config file when the
    provider is EXPRESS; the PostCss add-on when tailwind is on. *)
Theorem completed_components (w : World) (options : RemixAppProjectOptions) :
  completes w options = Normal tt →
  components (registrations w options)
  = [remixConfigFile (constructed w options)]
    ++ match process_env w !! REMIX_RUN_LICENSE with
       | Some (String c s) =>
           [ TextFile ".npmrc" false false
               [ "//npm.remix.run/:_authToken=" +:+ String c s;
                 "@remix-run:registry=https://npm.remix.run" ] ]
       | Some EmptyString | None => []
       end
    ++ match deploymentProvider (constructed w options) with
       | EXPRESS => [Pm2ConfigFile "pm2.config.js"]
       | VERCEL => []
       end
    ++ (if tailwind (constructed w options) then [PostCss true] else []).
Proof.
  unfold completes, registrations, constructed, constructor, constructor_body,
    credentials, license.
  destruct options as [v p a b pp s port t].
  destruct (process_env w !! REMIX_RUN_LICENSE) as [[|c token]|];
    destruct (existsSync w npmrc);
    destruct p as [| |[|]], t as [| |[|]];
    intros H; try discriminate H; reflexivity.
Qed.

(** Token and file together, VERCEL with tailwind: three components. *)
Lemma completed_components_witness :
  components (registrations token_file_world vercel_options)
  = [ remixConfigFile (constructed token_file_world vercel_options);
      TextFile ".npmrc" false false
        [ "//npm.remix.run/:_authToken=s3cr3t";
          "@remix-run:registry=https://npm.remix.run" ];
      PostCss true ].
Proof.
  rewrite (completed_components token_file_world vercel_options);
    vm_compute; reflexivity.
Defined.

(** X4.  The PostCss add-on is registered once, with tailwind enabled,
    when the construction completes with the tailwind field on, and not at
    all otherwise. *)
Theorem postcss_iff_tailwind (w : World) (options : RemixAppProjectOptions) :
  List.filter is_PostCss (components (registrations w options))
  = match completes w options with
    | Normal _ => if tailwind (constructed w options) then [PostCss true] else []
    | Throw _ => []
    end.
Proof.
  unfold completes, registrations, constructed.
  constructor_cases w options; reflexivity.
Qed.

(** X5.  On a completed construction the runtime dependencies are the
    seven framework ones followed by the provider's, every [@remix-run]
    package at the one resolved version, and the development dependencies
    are the two type packages followed by the provider's tools. *)
Theorem completed_dependencies (w : World) (options : RemixAppProjectOptions) :
  completes w options = Normal tt →
  deps (registrations w options)
  = [ "@remix-run/cli@" +:+ remixVersion (constructed w options);
      "@remix-run/data@" +:+ remixVersion (constructed w options);
      "@remix-run/react@" +:+ remixVersion (constructed w options);
      "react"; "react-dom";
      "react-router@^6.0.0-beta.0"; "react-router-dom@^6.0.0-beta.0" ]
    ++ match deploymentProvider (constructed w options) with
       | EXPRESS =>
           [ "@remix-run/express@" +:+ remixVersion (constructed w options);
             "express"; "morgan" ]
       | VERCEL =>
           [ "@remix-run/vercel@" +:+ remixVersion (constructed w options);
             "@vercel/node@1.8.3" ]
       end
  ∧ devDeps (registrations w options)
    = [ "@types/react"; "@types/react-dom" ]
      ++ match deploymentProvider (constructed w options) with
         | EXPRESS => [ "pm2" ]
         | VERCEL => [ "vercel"; "concurrently" ]
         end.
Proof.
  unfold completes, registrations, constructed.
  constructor_cases w options; intros H; try discriminate H;
    split; reflexivity.
Qed.

(** VERCEL at version 0.14.0, from the file on disk. *)
Lemma completed_dependencies_witness :
  deps (registrations file_world vercel_options)
  = [ "@remix-run/cli@0.14.0"; "@remix-run/data@0.14.0";
      "@remix-run/react@0.14.0"; "react"; "react-dom";
      "react-router@^6.0.0-beta.0"; "react-router-dom@^6.0.0-beta.0";
      "@remix-run/vercel@0.14.0"; "@vercel/node@1.8.3" ]
  ∧ devDeps (registrations file_world vercel_options)
    = [ "@types/react"; "@types/react-dom"; "vercel"; "concurrently" ].
Proof.
  destruct (completed_dependencies file_world vercel_options
              ltac:(vm_compute; reflexivity)) as [-> ->].
  split; vm_compute; reflexivity.
Defined.

(** ** Strings *)

Lemma string_length_app (a b : string) :
  String.length (a +:+ b) = (String.length a + String.length b)%nat.
Proof.
  induction a as [|c a IH]; [reflexivity|].
  change (S (String.length (a +:+ b)) = S (String.length a + String.length b)).
  now rewrite IH.
Qed.

Lemma string_app_inv_tail (a b t : string) : a +:+ t = b +:+ t → a = b.
Proof.
  revert b. induction a as [|c a IH]; intros [|c' b] H.
  - reflexivity.
  - change (t = String c' (b +:+ t)) in H.
    apply (f_equal String.length) in H.
    simpl in H. rewrite string_length_app in H. lia.
  - change (String c (a +:+ t) = t) in H.
    apply (f_equal String.length) in H.
    simpl in H. rewrite string_length_app in H. lia.
  - change (String c (a +:+ t) = String c' (b +:+ t)) in H.
    injection H as -> H. f_equal. apply IH, H.
Qed.

(** Printing an integer in decimal loses nothing. *)
Lemma number_to_string_inj (n m : Z) :
  Js.number_to_string n = Js.number_to_string m → n = m.
Proof.
  unfold Js.number_to_string. intros H.
  apply DecimalZ.to_int_inj.
  assert (Hnn : ∀ z, Z.to_int z ≠ Decimal.Pos Decimal.Nil
                     ∧ Z.to_int z ≠ Decimal.Neg Decimal.Nil).
  { intros [|p|p]; simpl; split; try discriminate;
      intros [= Hp]; now apply DecimalPos.Unsigned.to_uint_nonnil in Hp. }
  destruct (Hnn n) as [Hn1 Hn2], (Hnn m) as [Hm1 Hm2].
  pose proof (NilZero.isi _ Hn1 Hn2) as En.
  pose proof (NilZero.isi _ Hm1 Hm2) as Em.
  rewrite H in En. congruence.
Qed.

(** * Further properties of the framework config *)

(** X6.  The length of the rendered text is that of the constant template,
    1747 characters, plus the lengths of the four values and of the digits
    of the port: nothing is added to a value and nothing is taken from
    it. *)
Theorem config_text_length (o : RemixConfigFileOptions) :
  String.length (createRemixConfig o)
  = (1747 + String.length (cfg_appDirectory o)
     + String.length (cfg_browserBuildDirectory o)
     + String.length (cfg_publicPath o)
     + String.length (cfg_serverBuildDirectory o)
     + String.length (Js.number_to_string (cfg_devServerPort o)))%nat.
Proof.
  unfold createRemixConfig. rewrite !string_length_app.
  replace (String.length Template.seg0) with 228%nat by (vm_compute; reflexivity).
  replace (String.length Template.seg1) with 997%nat by (vm_compute; reflexivity).
  replace (String.length Template.seg2) with 123%nat by (vm_compute; reflexivity).
  replace (String.length Template.seg3) with 296%nat by (vm_compute; reflexivity).
  replace (String.length Template.seg4) with 98%nat by (vm_compute; reflexivity).
  replace (String.length Template.seg5) with 5%nat by (vm_compute; reflexivity).
  lia.
Qed.

(** X7.  Values are not escaped, so the text does not determine the
    options: a stretch of the template written inside the application
    directory can as well be read as the end of that value and the start
    of the next one.  The two different records below render the same
    text, whatever [x], [y] and [z] are. *)
Theorem unescaped_values_collide (x y z p s : string) (n : Z) :
  {| cfg_appDirectory := x +:+ Template.seg1 +:+ y;
     cfg_browserBuildDirectory := z;
     cfg_publicPath := p; cfg_serverBuildDirectory := s;
     cfg_devServerPort := n |}
  ≠ {| cfg_appDirectory := x;
       cfg_browserBuildDirectory := y +:+ Template.seg1 +:+ z;
       cfg_publicPath := p; cfg_serverBuildDirectory := s;
       cfg_devServerPort := n |}
  ∧ createRemixConfig
      {| cfg_appDirectory := x +:+ Template.seg1 +:+ y;
         cfg_browserBuildDirectory := z;
         cfg_publicPath := p; cfg_serverBuildDirectory := s;
         cfg_devServerPort := n |}
    = createRemixConfig
        {| cfg_appDirectory := x;
           cfg_browserBuildDirectory := y +:+ Template.seg1 +:+ z;
           cfg_publicPath := p; cfg_serverBuildDirectory := s;
           cfg_devServerPort := n |}.
Proof.
  split.
  - intros [= H _]. apply (f_equal String.length) in H.
    rewrite !string_length_app in H.
    replace (String.length Template.seg1) with 997%nat in H
      by (vm_compute; reflexivity).
    lia.
  - unfold createRemixConfig; simpl. rewrite !string_app_assoc. reflexivity.
Qed.

(** X8.  With the four string values the same, different ports give
    different texts: the port can be read back from the file. *)
Theorem port_shows_in_text (o o' : RemixConfigFileOptions) :
  same_layout o o' →
  cfg_devServerPort o ≠ cfg_devServerPort o' →
  createRemixConfig o ≠ createRemixConfig o'.
Proof.
  intros (Ha & Hb & Hp & Hs) Hport Htext. apply Hport.
  unfold createRemixConfig in Htext. rewrite Ha, Hb, Hp, Hs in Htext.
  do 9 apply (inj (String.app _)) in Htext.
  apply string_app_inv_tail in Htext.
  apply number_to_string_inj, Htext.
Qed.

(** The default layout at the ports 8002 and 3000. *)
Lemma port_shows_in_text_witness :
  createRemixConfig (default_layout 8002) ≠ createRemixConfig (default_layout 3000).
Proof.
  apply (port_shows_in_text (default_layout 8002) (default_layout 3000)).
  - repeat split.
  - discriminate.
Defined.

(** X9.  The framework config file is at [remix.config.js], is the first
    component of the project, and synthesizes to the template rendered
    with the five layout options, each replaced by its default when it is
    [undefined] or [null]; the world, the provider, the version and the
    tailwind flag have no part in it. *)
Theorem config_file_from_options (w : World) (options : RemixAppProjectOptions) :
  component_path (remixConfigFile (constructed w options))
  = Some "remix.config.js"
  ∧ List.hd_error (components (registrations w options))
    = Some (remixConfigFile (constructed w options))
  ∧ synthesizeContent (remixConfigFile (constructed w options))
    = Some (createRemixConfig
        {| cfg_appDirectory :=
             match opt_appDirectory options with
             | Js.value v => v | Js.undefined | Js.null => "app" end;
           cfg_browserBuildDirectory :=
             match opt_browserBuildDirectory options with
             | Js.value v => v | Js.undefined | Js.null => "public/build" end;
           cfg_publicPath :=
             match opt_publicPath options with
             | Js.value v => v | Js.undefined | Js.null => "/build/" end;
           cfg_serverBuildDirectory :=
             match opt_serverBuildDirectory options with
             | Js.value v => v | Js.undefined | Js.null => "build" end;
           cfg_devServerPort :=
             match opt_devServerPort options with
             | Js.value v => v | Js.undefined | Js.null => 8002 end |}).
Proof.
  destruct (constructed_config_file w options) as [Hcfg Hhd].
  destruct (constructed_resolved w options)
    as (_ & _ & Ha & Hb & Hp & Hs & Hn & _).
  split; [| split; [exact Hhd |]]; rewrite Hcfg; [reflexivity |].
  rewrite Ha, Hb, Hp, Hs, Hn. reflexivity.
Qed.

(** * Further properties of the credential bootstrap *)

(** X10.  Of the world the constructor reads the licence variable and
    whether [.npmrc] exists, and nothing else: two worlds that agree on
    both give the same completion and the same project. *)
Theorem constructor_reads_only_credentials (w w' : World)
    (options : RemixAppProjectOptions) :
  process_env w !! REMIX_RUN_LICENSE = process_env w' !! REMIX_RUN_LICENSE →
  (npmrc ∈ disk w ↔ npmrc ∈ disk w') →
  constructor w options = constructor w' options.
Proof.
  intros Henv Hdisk.
  assert (Hfile : existsSync w npmrc = existsSync w' npmrc)
    by (unfold existsSync; apply bool_decide_ext; exact Hdisk).
  unfold constructor, constructor_body, credentials, license.
  now rewrite Henv, Hfile.
Qed.

(** Other variables and other files make no difference. *)
Lemma constructor_reads_only_credentials_witness :
  constructor busy_world vercel_options = constructor token_world vercel_options.
Proof.
  apply (constructor_reads_only_credentials busy_world token_world vercel_options).
  - vm_compute; reflexivity.
  - split; intros H; apply existsSync_true in H; vm_compute in H; discriminate H.
Defined.

(** X11.  A non-empty token comes first: the disk is not consulted, so the
    result is that of the same environment with an empty disk, and the
    [.npmrc] text file is registered even when a credentials file is there
    already. *)
Theorem token_overrides_file (w : World) (options : RemixAppProjectOptions)
    (token : string) :
  process_env w !! REMIX_RUN_LICENSE = Some token →
  token ≠ "" →
  constructor w options
  = constructor {| process_env := process_env w; disk := ∅ |} options
  ∧ completes w options = Normal tt
  ∧ has_file (registrations w options) ".npmrc" = true.
Proof.
  intros Hset Hne.
  assert (Htruthy : Js.truthy (license w) = true)
    by (apply truthy_true_iff; exists token; split; assumption).
  split; [| split].
  - unfold constructor, constructor_body, credentials.
    change (license {| process_env := process_env w; disk := ∅ |})
      with (license w).
    now rewrite Htruthy.
  - unfold completes. now rewrite constructor_completion, Htruthy.
  - unfold registrations, constructed.
    constructor_cases w options; try discriminate Htruthy; reflexivity.
Qed.

(** Token and file together. *)
Lemma token_overrides_file_witness :
  constructor token_file_world no_options = constructor token_world no_options
  ∧ has_file (registrations token_file_world no_options) ".npmrc" = true.
Proof.
  destruct (token_overrides_file token_file_world no_options "s3cr3t"
              ltac:(vm_compute; reflexivity) ltac:(discriminate))
    as (Hsame & _ & Hfile).
  split; [exact Hsame | exact Hfile].
Defined.

(** * Nothing is registered twice *)

(** X12.  Whatever the world and the options, the constructor declares no
    dependency twice, neither within the runtime or the development
    dependencies nor across them, registers no two tasks of the same name
    and no two files at the same path. *)
Theorem registrations_nodup (w : World) (options : RemixAppProjectOptions) :
  NoDup (deps (registrations w options) ++ devDeps (registrations w options))
  ∧ NoDup (map fst (tasks (registrations w options)))
  ∧ NoDup (omap component_path (components (registrations w options))).
Proof.
  unfold registrations, constructed.
  constructor_split w options; (split; [| split]);
    try (refine (bool_decide_unpack _ _); vm_compute; exact I);
    apply (NoDup_fmap_1 declared_head);
    refine (bool_decide_unpack _ _); vm_compute; exact I.
Qed.

(** * The process-manager config *)

(** X13.  The process-manager config file is registered exactly when the
    construction completes with the EXPRESS provider.  Its text is the
    same for every world and every options record; it names the path of
    the framework config file that the project registers; and the command
    of the [dev] task is [pm2-dev] on the path the file is registered
    at. *)
Theorem pm2_config_file (w : World) (options : RemixAppProjectOptions) :
  (has_file (registrations w options) "pm2.config.js" = true
   ↔ completes w options = Normal tt
     ∧ deploymentProvider (constructed w options) = EXPRESS)
  ∧ (∀ c, c ∈ components (registrations w options) →
          component_path c = Some "pm2.config.js" →
          synthesizeContent c = Some pm2Config)
  ∧ (∀ p, component_path (remixConfigFile (constructed w options)) = Some p →
          includes p pm2Config = true)
  ∧ (∀ t, ("dev", t) ∈ tasks (registrations w options) →
          exec t = "pm2-dev " +:+ "pm2.config.js"
          ∧ has_file (registrations w options) "pm2.config.js" = true).
Proof.
  unfold completes, registrations, constructed.
  split; [| split; [| split]].
  - constructor_cases w options; split;
      solve [ intros H; discriminate H
            | intros [H1 H2]; discriminate
            | intros _; split; reflexivity
            | intros _; reflexivity ].
  - intros c Hin Hpath.
    destruct c as [q o | q cm ro ls | q | tw]; try reflexivity.
    + exfalso. revert Hin. simpl in Hpath. injection Hpath as ->.
      constructor_cases w options; intros Hin;
        repeat (apply elem_of_cons in Hin as [Hin|Hin]; [discriminate Hin|]);
        inversion Hin.
    + exfalso. revert Hin. simpl in Hpath. injection Hpath as ->.
      constructor_cases w options; intros Hin;
        repeat (apply elem_of_cons in Hin as [Hin|Hin]; [discriminate Hin|]);
        inversion Hin.
    + discriminate Hpath.
  - intros p. destruct (constructed_config_file w options) as [Hcfg _].
    unfold constructed in Hcfg. rewrite Hcfg. intros [= <-].
    vm_compute; reflexivity.
  - intros task. constructor_cases w options; intros Hin;
      repeat (apply elem_of_cons in Hin as [Hin|Hin];
              [try discriminate Hin; injection Hin as ->|]);
      try (inversion Hin; fail);
      split; reflexivity.
Qed.
